(** * salt.key_manager: the key store contract and its local file backend

    A shallow embedding of [salt/key_manager/__init__.py] (class
    [BaseKeyManager]) and [salt/key_manager/local_files.py] (class
    [LocalFileKeyManager]), with the properties of [save], [get], [remove]
    and of the private key encryption wrapper.

    The Python methods run against the process state: the file system and
    the file creation mask.  Here that state is the record [world], and a
    method is a function from the world to a result (a value or a raised
    exception) and the world it leaves behind.  An exception does not roll
    anything back: what was written before the [raise] stays written. *)

From Stdlib Require Import ZArith Ascii.
From stdpp Require Import base option strings gmap fin_maps.

Local Open Scope Z_scope.
Local Open Scope string_scope.

(** ** Python values *)

(** A byte string ([str] in Python 2, [bytes] in Python 3). *)
Abbreviation bytes := (list Byte.byte).

(** The values a configuration dictionary holds. *)
Inductive pyval : Type :=
| VNone
| VBool (b : bool)
| VInt (z : Z)
| VStr (s : string).

(** Python's truth value testing. *)
Definition truthy (v : pyval) : bool :=
  match v with
  | VNone => false
  | VBool b => b
  | VInt z => negb (z =? 0)%Z
  | VStr s => negb (String.eqb s "")
  end.

(** Truth value of a byte string: empty is false. *)
Definition truthy_bytes (b : bytes) : bool :=
  match b with
  | [] => false
  | _ :: _ => true
  end.

(** Truth value of an argument that is a byte string or [None]. *)
Definition truthy_opt (o : option bytes) : bool :=
  match o with
  | None => false
  | Some b => truthy_bytes b
  end.

(** ** Exceptions

    [KeyManagerConfigError], [SaltMasterError], [KeyExists] and
    [KeyNotFound] are the classes of [salt.exceptions] the two modules
    raise, with their message; the others are the built-in ones the
    library calls raise. *)

Inductive exn : Type :=
| KeyManagerConfigError (msg : string)
| SaltMasterError (msg : string)
| KeyExists (msg : string)
| KeyNotFound (msg : string)
| OSError (errno : Z)
| IOError (errno : Z)
| AttributeError.

Definition ENOENT : Z := 2.
Definition EEXIST : Z := 17.
Definition EISDIR : Z := 21.

Inductive result (A : Type) : Type :=
| Ok (a : A)
| Raise (e : exn).
Arguments Ok {A} a.
Arguments Raise {A} e.

(** ** The process state *)

(** What a path names: a regular file with its contents and permission
    bits, or a directory. *)
Inductive node : Type :=
| File (data : bytes) (mode : Z)
| Dir (mode : Z).

(** Paths are the strings the program builds; every string names its own
    slot of the store: there are no links, paths are not normalised
    ([a/./b] and [a/b] are two slots), and the store keeps no hierarchy,
    so that a file can be created at a path whose parent directory is not
    in it.  The calls fail where the store says so (a missing path, a
    directory in the place of a file) and not otherwise: a full disk, a
    refused permission, a parent that is missing or is a regular file are
    not part of this state.  The theorems that say an operation succeeds,
    or that compare two pairs, are therefore stated for key names that
    are file names ([plain_name] below): the artifacts then lie in the
    type directory itself, which [_get_key_path] has made sure of. *)
Record world : Type := World {
  w_fs : gmap string node;
  w_umask : Z
}.

Definition set_fs (f : gmap string node → gmap string node) (w : world) : world :=
  World (f (w_fs w)) (w_umask w).

(** ** Computations: state and exceptions *)

Definition M (A : Type) : Type := world → result A * world.

#[global] Instance M_ret : MRet M := λ A a w, (Ok a, w).

#[global] Instance M_bind : MBind M := λ A B f m w,
  match m w with
  | (Ok a, w') => f a w'
  | (Raise e, w') => (Raise e, w')
  end.

Definition raise {A : Type} (e : exn) : M A := λ w, (Raise e, w).

Definition gets {A : Type} (f : world → A) : M A := λ w, (Ok (f w), w).

(** ** The operating system calls the backend uses *)

Definition is_file (o : option node) : bool :=
  match o with
  | Some (File _ _) => true
  | _ => false
  end.

Fixpoint endswith_sep (s : string) : bool :=
  match s with
  | "" => false
  | String c "" => Ascii.eqb c "/"%char
  | String _ r => endswith_sep r
  end.

Definition startswith_sep (s : string) : bool :=
  match s with
  | String c _ => Ascii.eqb c "/"%char
  | "" => false
  end.

Module os.

Module path.

(** [posixpath.join] of two components. *)
Definition join (a b : string) : string :=
  if startswith_sep b then b
  else if String.eqb a "" || endswith_sep a then a ++ b
  else a ++ "/" ++ b.

Definition exists_ (p : string) : M bool :=
  gets (λ w, bool_decide (is_Some (w_fs w !! p))).

Definition isfile (p : string) : M bool :=
  gets (λ w, is_file (w_fs w !! p)).

End path.

(** [os.makedirs(p)] with the default mode: the new directory gets
    [0777] less the file creation mask; an existing path is an error.
    The store keeps no hierarchy: the parents the call makes on the way
    are not recorded, and no theorem below says that they stay absent. *)
Definition makedirs (p : string) : M unit := λ w,
  match w_fs w !! p with
  | Some _ => (Raise (OSError EEXIST), w)
  | None => (Ok tt, set_fs <[p := Dir (Z.ldiff 511 (w_umask w))]> w)
  end.

(** [os.umask(mask)]: install the new mask, return the one before. *)
Definition umask (mask : Z) : M Z := λ w,
  (Ok (w_umask w), World (w_fs w) (Z.land mask 511)).

(** [os.chmod(p, mode)]: the path has to exist. *)
Definition chmod (p : string) (mode : Z) : M unit := λ w,
  match w_fs w !! p with
  | Some (File d _) => (Ok tt, set_fs <[p := File d mode]> w)
  | Some (Dir _) => (Ok tt, set_fs <[p := Dir mode]> w)
  | None => (Raise (OSError ENOENT), w)
  end.

(** [os.remove(p)]: unlink a file. *)
Definition remove (p : string) : M unit := λ w,
  match w_fs w !! p with
  | Some (File _ _) => (Ok tt, set_fs (delete p) w)
  | Some (Dir _) => (Raise (OSError EISDIR), w)
  | None => (Raise (OSError ENOENT), w)
  end.

End os.

(** Modelled from the spec: [salt.utils.fopen] is not among the sources;
    it opens a file as the built-in [open] does, and the spec has [save]
    write each artifact in full and [get] read it.

    [with fopen(p, 'wb+') as f: f.write(data)]: the file is created with
    [0666] less the file creation mask, or truncated when it is there,
    and then holds [data]; a directory cannot be opened.  The parent
    directory is taken to be there: this is so for the artifacts of a
    pair whose key name is a file name, the case the theorems about a
    successful write are stated for. *)
Definition fopen_write (p : string) (data : bytes) : M unit := λ w,
  match w_fs w !! p with
  | Some (Dir _) => (Raise (IOError EISDIR), w)
  | Some (File _ mode) => (Ok tt, set_fs <[p := File data mode]> w)
  | None => (Ok tt, set_fs <[p := File data (Z.ldiff 438 (w_umask w))]> w)
  end.

(** Modelled from the spec: [salt.utils.fopen], as above.

    [with fopen(p) as f: f.read()] *)
Definition fopen_read (p : string) : M bytes := λ w,
  match w_fs w !! p with
  | Some (File d _) => (Ok d, w)
  | Some (Dir _) => (Raise (IOError EISDIR), w)
  | None => (Raise (IOError ENOENT), w)
  end.

(** ** The cipher adapter *)

(** Modelled from the spec: [salt.crypt.Crypticle] is not among the
    sources; the spec has it as an external collaborator that, under a
    secret taken from the configuration, exposes [encrypt] and [decrypt]
    from byte strings to byte strings.  Its constructor is a parameter of
    [__init__] below. *)
Record Crypticle : Type := {
  encrypt : bytes → bytes;
  decrypt : bytes → bytes
}.

(** ** BaseKeyManager *)

Record BaseKeyManager : Type := {
  opts : gmap string pyval;
  crypt : option Crypticle
}.

Definition config_error_msg : string :=
  "keystore_secret must be set " ++
  "                        when private key encryption is enabled.".

(** ['encrypt_private_keys' in opts and opts['encrypt_private_keys']] *)
Definition encryption_enabled (opts : gmap string pyval) : bool :=
  match opts !! "encrypt_private_keys" with
  | Some v => truthy v
  | None => false
  end.

Section Construction.

(** The constructor [Crypticle(opts, key_string)]. *)
Variable new_Crypticle : gmap string pyval → pyval → Crypticle.

(** [BaseKeyManager.__init__]; [initialize] is the hook a backend
    overrides. *)
Definition __init__ {T : Type} (initialize : BaseKeyManager → result T)
    (opts : gmap string pyval) : result T :=
  if encryption_enabled opts then
    match opts !! "keystore_secret" with
    | Some secret =>
        initialize {| opts := opts; crypt := Some (new_Crypticle opts secret) |}
    | None => Raise (KeyManagerConfigError config_error_msg)
    end
  else initialize {| opts := opts; crypt := None |}.

End Construction.

Definition _encrypt_priv_key (self : BaseKeyManager) (priv_key : bytes) : bytes :=
  match crypt self with
  | Some c => encrypt c priv_key
  | None => priv_key
  end.

Definition _decrypt_priv_key (self : BaseKeyManager) (crypted_key : bytes) : bytes :=
  match crypt self with
  | Some c => decrypt c crypted_key
  | None => crypted_key
  end.

(** ** LocalFileKeyManager *)

Record LocalFileKeyManager : Type := {
  base : BaseKeyManager;
  base_dir : pyval
}.

Definition initialize (self : BaseKeyManager) : result LocalFileKeyManager :=
  match opts self !! "pki_dir" with
  | Some d => Ok {| base := self; base_dir := d |}
  | None => Raise (SaltMasterError "LocalFileKeyManager requires pki_dir to be set.")
  end.

(** [os.path.join(self.base_dir, key_type)]: [base_dir] is whatever the
    configuration held.  [posixpath.join] looks at its first argument only
    when the second is relative, and then calls a string method on it. *)
Definition join_base (a : pyval) (b : string) : M string :=
  if startswith_sep b then mret b
  else match a with
       | VStr s => mret (os.path.join s b)
       | _ => raise AttributeError
       end.

Definition _get_key_path (self : LocalFileKeyManager)
    (key_type key_name : string) (private : bool) : M string :=
  let suffix := if private then "pem" else "pub" in
  let file_name := key_name ++ "." ++ suffix in
  type_dir ← join_base (base_dir self) key_type;
  there ← os.path.exists_ type_dir;
  (if negb (there : bool) then os.makedirs type_dir else mret tt);;
  mret (os.path.join type_dir file_name).

Definition save (self : LocalFileKeyManager) (key_type key_name : string)
    (pub_key : bytes) (priv_key : option bytes) : M unit :=
  let priv_key_to_store :=
    match priv_key with
    | Some k => if truthy_bytes k then Some (_encrypt_priv_key (base self) k) else None
    | None => None
    end in
  pub_key_path ← _get_key_path self key_type key_name false;
  priv_key_path ← _get_key_path self key_type key_name true;
  pub_there ← os.path.isfile pub_key_path;
  if (pub_there : bool) then
    raise (KeyExists ("A public key for " ++ key_name ++ " already exists in the store."))
  else
  priv_there ← os.path.isfile priv_key_path;
  if truthy_opt priv_key && (priv_there : bool) then
    raise (KeyExists ("A private key for " ++ key_name ++ " already exists in the store."))
  else
  cumask ← os.umask 191;
  fopen_write pub_key_path pub_key;;
  match priv_key_to_store with
  | Some k => if truthy_bytes k then fopen_write priv_key_path k else mret tt
  | None => mret tt
  end;;
  os.chmod priv_key_path 256.

Definition get (self : LocalFileKeyManager) (key_type key_name : string)
    (decrypt_priv : bool) : M (bytes * option bytes) :=
  pub_key_path ← _get_key_path self key_type key_name false;
  priv_key_path ← _get_key_path self key_type key_name true;
  pub_there ← os.path.isfile pub_key_path;
  pub_key ← (if (pub_there : bool) then fopen_read pub_key_path
             else raise (KeyNotFound ("No public key was found for " ++ key_name)));
  priv_there ← os.path.isfile priv_key_path;
  priv_key ← (if (priv_there : bool)
              then stored ← fopen_read priv_key_path;
                   mret (Some (_decrypt_priv_key (base self) stored))
              else mret None);
  mret (pub_key, priv_key).

Definition remove (self : LocalFileKeyManager) (key_type key_name : string) : M unit :=
  pub_key_path ← _get_key_path self key_type key_name false;
  priv_key_path ← _get_key_path self key_type key_name true;
  pub_there ← os.path.isfile pub_key_path;
  (if (pub_there : bool) then os.remove pub_key_path else mret tt);;
  priv_there ← os.path.isfile priv_key_path;
  (if (priv_there : bool) then os.remove priv_key_path else mret tt).

(** [MANAGER(opts)] *)
Definition MANAGER (new_Crypticle : gmap string pyval → pyval → Crypticle)
    (opts : gmap string pyval) : result LocalFileKeyManager :=
  __init__ new_Crypticle initialize opts.

(** ** A stand-in cipher

    A test double for [Crypticle]: the ciphertext is a tag byte followed
    by the plain text reversed.  It is an inverse pair, its ciphertext is
    never empty and never equal to the plain text. *)
Definition mock_encrypt (x : bytes) : bytes := Byte.x01 :: rev x.

Definition mock_decrypt (c : bytes) : bytes :=
  match c with
  | [] => []
  | _ :: r => rev r
  end.

Definition mock_Crypticle : Crypticle :=
  {| encrypt := mock_encrypt; decrypt := mock_decrypt |}.

(** ** Concrete configurations and stores used in the examples *)

(** A byte string literal. *)
Definition bs (s : string) : bytes := String.list_byte_of_string s.

Definition opts_plain : gmap string pyval :=
  {[ "pki_dir" := VStr "/etc/salt/pki" ]}.

Definition opts_encrypted : gmap string pyval :=
  <[ "encrypt_private_keys" := VBool true ]>
  (<[ "keystore_secret" := VStr "s3cr3t" ]> opts_plain).

Definition km_plain : LocalFileKeyManager :=
  {| base := {| opts := opts_plain; crypt := None |};
     base_dir := VStr "/etc/salt/pki" |}.

Definition km_encrypted : LocalFileKeyManager :=
  {| base := {| opts := opts_encrypted; crypt := Some mock_Crypticle |};
     base_dir := VStr "/etc/salt/pki" |}.

(** An empty store in a process with the usual mask [022]. *)
Definition world0 : world := World ∅ 18.

(** ** What the key paths are *)

Definition suffix_of (private : bool) : string :=
  if private then "pem" else "pub".

(** The value [_get_key_path] returns when [base_dir] is the string [d]. *)
Definition key_path (d key_type key_name : string) (private : bool) : string :=
  os.path.join (os.path.join d key_type) (key_name ++ "." ++ suffix_of private).

(** The effect of [_get_key_path] on the store: the type directory is
    there afterwards. *)
Definition ensure_dir (p : string) (w : world) : world :=
  match w_fs w !! p with
  | Some _ => w
  | None => set_fs <[p := Dir (Z.ldiff 511 (w_umask w))]> w
  end.

(** No NUL character: the system calls take no path that holds one. *)
Fixpoint no_nul (s : string) : bool :=
  match s with
  | "" => true
  | String c r => negb (Ascii.eqb c "000"%char) && no_nul r
  end.

(** A file name: no separator in it and no NUL.  An artifact of a pair
    with such a key name lies in the type directory itself, the directory
    [_get_key_path] makes sure of, and two such names that differ name
    different files. *)
Fixpoint plain_name (s : string) : bool :=
  match s with
  | "" => true
  | String c r =>
      negb (Ascii.eqb c "/"%char) && negb (Ascii.eqb c "000"%char) && plain_name r
  end.

(** The type directory is there or can be made: its path is not a regular
    file, not the empty path (which [os.makedirs] refuses) and holds no
    NUL. *)
Definition type_dir_ok (d key_type : string) (w : world) : Prop :=
  is_file (w_fs w !! os.path.join d key_type) = false ∧
  os.path.join d key_type ≠ "" ∧
  no_nul (os.path.join d key_type) = true.

(** The pair is free and can be written: no artifact is stored for it,
    the key name is a file name, and the type directory is there or can
    be made. *)
Definition fresh (d key_type key_name : string) (w : world) : Prop :=
  w_fs w !! key_path d key_type key_name false = None ∧
  w_fs w !! key_path d key_type key_name true = None ∧
  plain_name key_name = true ∧
  type_dir_ok d key_type w.

(** The contents of a stored artifact. *)
Definition file_data (o : option node) : option bytes :=
  match o with
  | Some (File d _) => Some d
  | _ => None
  end.


(** The store a successful [save] of a pair with private material [k]
    (as stored) leaves, from the store [w1] after path derivation: the
    two writes, then the [os.chmod] of the private path. *)
Definition saved (P Q : string) (pub_key k : bytes) (w1 : world) : world :=
  World (<[Q := File k 256]> (<[Q := File k 256]> (<[P := File pub_key 256]> (w_fs w1)))) 191.

(** The messages of [KeyExists]. *)
Definition pub_exists_msg (key_name : string) : string :=
  "A public key for " ++ key_name ++ " already exists in the store.".

Definition priv_exists_msg (key_name : string) : string :=
  "A private key for " ++ key_name ++ " already exists in the store.".

(** A store that holds a private artifact for [minion/node1] and no public
    one. *)
Definition world_private_only : world :=
  World (<[ "/etc/salt/pki/minion/node1.pem" := File (bs "OLDPRIV") 256 ]>
         {[ "/etc/salt/pki/minion" := Dir 493 ]}) 18.

(** A store where the public path of [minion/node1] is a directory, so
    that writing the public artifact fails. *)
Definition world_pub_is_dir : world :=
  World (<[ "/etc/salt/pki/minion/node1.pub" := Dir 493 ]>
         {[ "/etc/salt/pki/minion" := Dir 493 ]}) 18.

(** The store after [save("minion", "node1", b"PUBKEY", b"PRIVKEY")] with
    encryption enabled. *)
Definition world_encrypted : world :=
  snd (save km_encrypted "minion" "node1" (bs "PUBKEY") (Some (bs "PRIVKEY")) world0).

(** The permission bits of whatever a path names. *)
Definition node_mode (n : node) : Z :=
  match n with
  | File _ mode => mode
  | Dir mode => mode
  end.

(** The message of [initialize] when [pki_dir] is not set. *)
Definition pki_dir_error_msg : string :=
  "LocalFileKeyManager requires pki_dir to be set.".

(** * Properties *)

(** ** Running a computation *)

Lemma run_bind {A B : Type} (m : M A) (f : A → M B) (w : world) :
  (m ≫= f) w =
  match m w with
  | (Ok a, w') => f a w'
  | (Raise e, w') => (Raise e, w')
  end.
Proof. reflexivity. Qed.

(** Unfold the primitives and take the steps that compute. *)
Ltac run :=
  unfold os.path.isfile, os.path.exists_, os.umask, os.chmod, os.remove,
    fopen_read, fopen_write, gets, raise, mbind, M_bind, mret, M_ret;
  cbn beta iota delta [fst snd w_fs w_umask set_fs negb andb is_file file_data
    truthy_bytes truthy_opt fmap option_fmap option_map].

(** ** Paths *)

Lemma join_base_str (d key_type : string) (w : world) :
  join_base (VStr d) key_type w = (Ok (os.path.join d key_type), w).
Proof.
  unfold join_base, os.path.join.
  destruct (startswith_sep key_type); reflexivity.
Qed.

Lemma startswith_sep_file_name (key_name sfx : string) :
  startswith_sep (key_name ++ "." ++ sfx) = startswith_sep key_name.
Proof. destruct key_name; reflexivity. Qed.

Lemma string_app_inj_l (p x y : string) : p ++ x = p ++ y → x = y.
Proof. apply (inj (String.app p)). Qed.

Lemma string_app_nil_r (p : string) : p ++ "" = p.
Proof.
  induction p as [|c p IH]; [reflexivity|].
  change (String c (p ++ "") = String c p). by rewrite IH.
Qed.

Lemma string_app_ne_self (p x : string) : x ≠ "" → p ++ x ≠ p.
Proof.
  intros Hx H. apply Hx.
  apply (string_app_inj_l p). by rewrite H, string_app_nil_r.
Qed.

(** The two artifacts of a pair never share a path. *)
Lemma key_path_pub_ne_priv (d key_type key_name : string) :
  key_path d key_type key_name false ≠ key_path d key_type key_name true.
Proof.
  unfold key_path, os.path.join at 1 3.
  rewrite !startswith_sep_file_name.
  set (t := os.path.join d key_type).
  destruct (startswith_sep key_name); [|destruct (_ || _)]; simpl;
    intros H; repeat (apply string_app_inj_l in H); discriminate H.
Qed.

(** A relative key name puts the artifact strictly below the type
    directory. *)
Lemma key_path_ne_type_dir (d key_type key_name : string) (private : bool) :
  startswith_sep key_name = false →
  key_path d key_type key_name private ≠ os.path.join d key_type.
Proof.
  intros Hrel. unfold key_path, os.path.join at 1.
  rewrite startswith_sep_file_name, Hrel.
  set (t := os.path.join d key_type).
  destruct (_ || _); apply string_app_ne_self;
    destruct key_name; discriminate.
Qed.

(** ** The type directory *)

Lemma ensure_dir_there (p : string) (w : world) :
  is_Some (w_fs w !! p) → ensure_dir p w = w.
Proof. intros [n Hn]. unfold ensure_dir. by rewrite Hn. Qed.

Lemma ensure_dir_is_Some (p : string) (w : world) :
  is_Some (w_fs (ensure_dir p w) !! p).
Proof.
  unfold ensure_dir. destruct (w_fs w !! p) eqn:E; simpl.
  - rewrite E. eauto.
  - rewrite lookup_insert_eq. eauto.
Qed.

Lemma ensure_dir_idem (p : string) (w : world) :
  ensure_dir p (ensure_dir p w) = ensure_dir p w.
Proof. apply ensure_dir_there, ensure_dir_is_Some. Qed.

Lemma ensure_dir_umask (p : string) (w : world) :
  w_umask (ensure_dir p w) = w_umask w.
Proof. unfold ensure_dir. by destruct (w_fs w !! p). Qed.

Lemma ensure_dir_lookup_ne (p q : string) (w : world) :
  q ≠ p → w_fs (ensure_dir p w) !! q = w_fs w !! q.
Proof.
  intros Hne. unfold ensure_dir. destruct (w_fs w !! p); [done|].
  simpl. by rewrite lookup_insert_ne.
Qed.

(** Creating the directory neither adds, removes nor changes a file. *)
Lemma ensure_dir_file_data (p q : string) (w : world) :
  file_data (w_fs (ensure_dir p w) !! q) = file_data (w_fs w !! q).
Proof.
  unfold ensure_dir. destruct (w_fs w !! p) eqn:E; [done|]. simpl.
  destruct (decide (p = q)) as [->|Hne].
  - by rewrite lookup_insert_eq, E.
  - by rewrite lookup_insert_ne.
Qed.

Lemma ensure_dir_is_file (p q : string) (w : world) :
  is_file (w_fs (ensure_dir p w) !! q) = is_file (w_fs w !! q).
Proof.
  unfold ensure_dir. destruct (w_fs w !! p) eqn:E; [done|]. simpl.
  destruct (decide (p = q)) as [->|Hne].
  - by rewrite lookup_insert_eq, E.
  - by rewrite lookup_insert_ne.
Qed.

(** [_get_key_path] returns [key_path] and leaves the type directory in
    place. *)
Lemma _get_key_path_run (self : LocalFileKeyManager) (d key_type key_name : string)
    (private : bool) (w : world) :
  base_dir self = VStr d →
  _get_key_path self key_type key_name private w =
  (Ok (key_path d key_type key_name private), ensure_dir (os.path.join d key_type) w).
Proof.
  intros Hd. unfold _get_key_path. rewrite Hd, run_bind, join_base_str.
  unfold ensure_dir, os.path.exists_, os.makedirs, gets, key_path, suffix_of.
  rewrite !run_bind.
  destruct (w_fs w !! os.path.join d key_type) eqn:E.
  - rewrite bool_decide_eq_true_2 by eauto. reflexivity.
  - rewrite bool_decide_eq_false_2 by (intros [? ?]; congruence).
    simpl. rewrite E. reflexivity.
Qed.

(** A second derivation in a row changes nothing more. *)
Lemma _get_key_path_twice {A : Type} (self : LocalFileKeyManager)
    (d key_type key_name : string) (k : string → string → M A) (w : world) :
  base_dir self = VStr d →
  (pub_key_path ← _get_key_path self key_type key_name false;
   priv_key_path ← _get_key_path self key_type key_name true;
   k pub_key_path priv_key_path) w =
  k (key_path d key_type key_name false) (key_path d key_type key_name true)
    (ensure_dir (os.path.join d key_type) w).
Proof.
  intros Hd.
  rewrite run_bind, (_get_key_path_run self d) by done.
  rewrite run_bind, (_get_key_path_run self d) by done.
  by rewrite ensure_dir_idem.
Qed.

(** ** get *)

(** What [get] computes, in one expression. *)
Lemma get_run (self : LocalFileKeyManager) (d key_type key_name : string)
    (decrypt_priv : bool) (w : world) :
  base_dir self = VStr d →
  let w1 := ensure_dir (os.path.join d key_type) w in
  get self key_type key_name decrypt_priv w =
  match file_data (w_fs w !! key_path d key_type key_name false) with
  | Some pub_key =>
      (Ok (pub_key,
           _decrypt_priv_key (base self) <$>
             file_data (w_fs w !! key_path d key_type key_name true)), w1)
  | None => (Raise (KeyNotFound ("No public key was found for " ++ key_name)), w1)
  end.
Proof.
  intros Hd w1. unfold get.
  rewrite (_get_key_path_twice self d) by done. fold w1.
  rewrite <- (ensure_dir_file_data (os.path.join d key_type) (key_path d key_type key_name false) w).
  rewrite <- (ensure_dir_file_data (os.path.join d key_type) (key_path d key_type key_name true) w).
  fold w1. clearbody w1.
  destruct (w_fs w1 !! key_path d key_type key_name false) as [[pk ?|?]|] eqn:EP;
    destruct (w_fs w1 !! key_path d key_type key_name true) as [[sk ?|?]|] eqn:EQ;
    do 4 (run; rewrite ?EP, ?EQ); reflexivity.
Qed.





(** ** remove *)











(** ** save *)

Lemma plain_name_relative (s : string) :
  plain_name s = true → startswith_sep s = false.
Proof.
  destruct s as [|c r]; [done|]. simpl.
  destruct (Ascii.eqb c "/"); [discriminate|done].
Qed.

Lemma join_nonempty (d key_type : string) : d ≠ "" → os.path.join d key_type ≠ "".
Proof.
  intros Hd. unfold os.path.join.
  destruct (startswith_sep key_type) eqn:E; [by destruct key_type|].
  destruct (_ || _); by destruct d.
Qed.

Lemma fresh_after_derivation (d key_type key_name : string) (w : world) :
  fresh d key_type key_name w →
  w_fs (ensure_dir (os.path.join d key_type) w) !! key_path d key_type key_name false = None ∧
  w_fs (ensure_dir (os.path.join d key_type) w) !! key_path d key_type key_name true = None.
Proof.
  intros (HP & HQ & Hplain & _). apply plain_name_relative in Hplain.
  rewrite !ensure_dir_lookup_ne by (by apply key_path_ne_type_dir). done.
Qed.

Lemma truthy_bytes_true (k : bytes) : k ≠ [] → truthy_bytes k = true.
Proof. by destruct k. Qed.

Lemma save_fresh_run (self : LocalFileKeyManager) (d key_type key_name : string)
    (pub_key priv_key : bytes) (w : world) :
  base_dir self = VStr d →
  fresh d key_type key_name w →
  priv_key ≠ [] →
  _encrypt_priv_key (base self) priv_key ≠ [] →
  save self key_type key_name pub_key (Some priv_key) w =
  (Ok tt, saved (key_path d key_type key_name false) (key_path d key_type key_name true)
            pub_key (_encrypt_priv_key (base self) priv_key)
            (ensure_dir (os.path.join d key_type) w)).
Proof.
  intros Hd Hfresh Hpriv Henc. unfold save.
  rewrite (_get_key_path_twice self d) by done.
  destruct (fresh_after_derivation _ _ _ _ Hfresh) as [EP EQ].
  pose proof (key_path_pub_ne_priv d key_type key_name) as Hne.
  revert EP EQ. generalize (ensure_dir (os.path.join d key_type) w). intros w1 EP EQ.
  set (P := key_path d key_type key_name false) in *.
  set (Q := key_path d key_type key_name true) in *.
  rewrite (truthy_bytes_true priv_key), (truthy_bytes_true _ Henc) by done.
  unfold truthy_opt. rewrite (truthy_bytes_true priv_key) by done.
  run. rewrite EP. run. rewrite EQ. run. rewrite EP. run.
  rewrite lookup_insert_ne, EQ by done. run.
  rewrite lookup_insert_eq. reflexivity.
Qed.





Lemma fresh_world0 (d key_type key_name : string) :
  plain_name key_name = true → d ≠ "" → no_nul (os.path.join d key_type) = true →
  fresh d key_type key_name world0.
Proof.
  intros H Hd Hnul. split; [done|]. split; [done|]. split; [done|].
  split; [done|]. split; [by apply join_nonempty|done].
Qed.


(** An existing public artifact stops [save] before it writes. *)
Lemma save_pub_exists (self : LocalFileKeyManager) (d key_type key_name : string)
    (pub_key : bytes) (priv_key : option bytes) (w : world) :
  base_dir self = VStr d →
  is_file (w_fs w !! key_path d key_type key_name false) = true →
  save self key_type key_name pub_key priv_key w =
  (Raise (KeyExists (pub_exists_msg key_name)), ensure_dir (os.path.join d key_type) w).
Proof.
  intros Hd HP. unfold save.
  rewrite (_get_key_path_twice self d) by done.
  rewrite <- (ensure_dir_is_file (os.path.join d key_type)) in HP.
  run. rewrite HP. reflexivity.
Qed.

(** So does an existing private artifact, when private material is given. *)
Lemma save_priv_exists (self : LocalFileKeyManager) (d key_type key_name : string)
    (pub_key : bytes) (priv_key : option bytes) (w : world) :
  base_dir self = VStr d →
  is_file (w_fs w !! key_path d key_type key_name false) = false →
  truthy_opt priv_key = true →
  is_file (w_fs w !! key_path d key_type key_name true) = true →
  save self key_type key_name pub_key priv_key w =
  (Raise (KeyExists (priv_exists_msg key_name)), ensure_dir (os.path.join d key_type) w).
Proof.
  intros Hd HP Hpriv HQ. unfold save.
  rewrite (_get_key_path_twice self d) by done.
  rewrite <- (ensure_dir_is_file (os.path.join d key_type)) in HP, HQ.
  run. rewrite HP. run. rewrite Hpriv, HQ. reflexivity.
Qed.



(** ** The duplicate check *)

(** C6, as stated, fails: with a private artifact stored and no private
    material supplied, [save] does not raise [KeyExists]; it returns. *)
Lemma save_private_stored_not_supplied :
  is_file (w_fs world_private_only !! key_path "/etc/salt/pki" "minion" "node1" true) = true ∧
  fst (save km_plain "minion" "node1" (bs "PUBKEY") None world_private_only) = Ok tt ∧
  ¬ (∃ msg, fst (save km_plain "minion" "node1" (bs "PUBKEY") None world_private_only)
            = Raise (KeyExists msg)).
Proof.
  assert (H : fst (save km_plain "minion" "node1" (bs "PUBKEY") None world_private_only)
              = Ok tt) by (vm_compute; reflexivity).
  split; [vm_compute; reflexivity|]. split; [exact H|].
  intros [msg Hmsg]. rewrite H in Hmsg. discriminate Hmsg.
Qed.

(** C6, amended: [save] raises [KeyExists], before any write, whenever the
    public artifact is stored, and whenever private material (not empty)
    is supplied and the private artifact is stored. *)
Theorem save_KeyExists (self : LocalFileKeyManager) (d key_type key_name : string)
    (pub_key : bytes) (priv_key : option bytes) (w : world) :
  base_dir self = VStr d →
  is_file (w_fs w !! key_path d key_type key_name false) = true ∨
  (truthy_opt priv_key = true ∧
   is_file (w_fs w !! key_path d key_type key_name true) = true) →
  ∃ msg, save self key_type key_name pub_key priv_key w =
         (Raise (KeyExists msg), ensure_dir (os.path.join d key_type) w).
Proof.
  intros Hd H.
  destruct (is_file (w_fs w !! key_path d key_type key_name false)) eqn:HP.
  - eexists. by apply save_pub_exists.
  - destruct H as [H|[Hpriv HQ]]; [done|].
    eexists. by apply save_priv_exists.
Qed.

Lemma save_KeyExists_witness :
  base_dir km_plain = VStr "/etc/salt/pki" ∧
  (truthy_opt (Some (bs "PRIVKEY")) = true ∧
   is_file (w_fs world_private_only !! key_path "/etc/salt/pki" "minion" "node1" true) = true) ∧
  ∃ msg, save km_plain "minion" "node1" (bs "PUBKEY") (Some (bs "PRIVKEY")) world_private_only
         = (Raise (KeyExists msg), ensure_dir (os.path.join "/etc/salt/pki" "minion") world_private_only).
Proof.
  split; [reflexivity|]. split; [split; vm_compute; reflexivity|].
  apply (save_KeyExists km_plain "/etc/salt/pki" "minion" "node1"); [reflexivity|].
  right. split; vm_compute; reflexivity.
Defined.

(** ** Empty private material *)

(** [save] of a pair without private material (absent or empty), from the
    store [w1] after path derivation with the public path not a file. *)
Lemma save_no_private_run (self : LocalFileKeyManager) (d key_type key_name : string)
    (pub_key : bytes) (priv_key : option bytes) (w : world) :
  base_dir self = VStr d →
  truthy_opt priv_key = false →
  is_file (w_fs w !! key_path d key_type key_name false) = false →
  let P := key_path d key_type key_name false in
  let Q := key_path d key_type key_name true in
  let w1 := ensure_dir (os.path.join d key_type) w in
  let w2 := World (w_fs w1) 191 in
  save self key_type key_name pub_key priv_key w =
  match w_fs w1 !! P with
  | Some _ => (Raise (IOError EISDIR), w2)
  | None =>
      os.chmod Q 256 (set_fs <[P := File pub_key 256]> w2)
  end.
Proof.
  intros Hd Hpriv HP P Q w1 w2. unfold save.
  rewrite (_get_key_path_twice self d) by done.
  rewrite <- (ensure_dir_is_file (os.path.join d key_type)) in HP.
  fold P Q w1 in HP |- *. subst w2. clearbody w1.
  assert (Hstore : match priv_key with
                   | Some k => if truthy_bytes k
                               then Some (_encrypt_priv_key (base self) k) else None
                   | None => None
                   end = None).
  { destruct priv_key as [k|]; [|done]. simpl in Hpriv. by rewrite Hpriv. }
  rewrite Hstore, Hpriv.
  destruct (w_fs w1 !! P) as [[]|] eqn:EP; try discriminate HP;
    do 3 (run; rewrite ?EP); reflexivity.
Qed.

(** C10: empty private material is no private material.  [save] with the
    empty byte string does what [save] without private material does; the
    cipher plays no part in it (two managers that agree on the directory
    give the same outcome); the contents stored at the private path are
    not touched; and [KeyExists] is raised exactly when the public
    artifact is stored, also with a private artifact in the store. *)
Theorem save_empty_private_as_absent (self self' : LocalFileKeyManager)
    (d key_type key_name : string) (pub_key : bytes) (w : world) :
  base_dir self = VStr d →
  save self key_type key_name pub_key (Some []) w =
    save self key_type key_name pub_key None w ∧
  (base_dir self' = base_dir self →
   save self' key_type key_name pub_key (Some []) w =
     save self key_type key_name pub_key (Some []) w) ∧
  file_data (w_fs (snd (save self key_type key_name pub_key (Some []) w))
               !! key_path d key_type key_name true)
    = file_data (w_fs w !! key_path d key_type key_name true) ∧
  ((∃ msg, fst (save self key_type key_name pub_key (Some []) w) = Raise (KeyExists msg))
     ↔ is_file (w_fs w !! key_path d key_type key_name false) = true).
Proof.
  intros Hd. split; [reflexivity|]. split.
  { intros Hb. unfold save, _get_key_path. rewrite Hb. reflexivity. }
  pose proof (key_path_pub_ne_priv d key_type key_name) as Hne.
  destruct (is_file (w_fs w !! key_path d key_type key_name false)) eqn:HP.
  - rewrite (save_pub_exists self d) by done. simpl.
    split; [apply ensure_dir_file_data|]. split; eauto.
  - rewrite (save_no_private_run self d) by done.
    cbv zeta. rewrite <- (ensure_dir_file_data (os.path.join d key_type) _ w).
    generalize (ensure_dir (os.path.join d key_type) w). intros w1.
    destruct (w_fs w1 !! key_path d key_type key_name false) as [n|] eqn:EP.
    + simpl. split; [done|]. split; [|done]. intros [msg H]. discriminate H.
    + unfold os.chmod. simpl. rewrite lookup_insert_ne by done.
      destruct (w_fs w1 !! key_path d key_type key_name true) as [[]|] eqn:EQ; simpl;
        rewrite ?lookup_insert_eq, ?lookup_insert_ne, ?EQ by done;
        (split; [done|]); (split; [|done]); intros [msg H]; discriminate H.
Qed.

Lemma save_empty_private_as_absent_witness :
  base_dir km_encrypted = VStr "/etc/salt/pki" ∧
  save km_encrypted "minion" "node1" (bs "PUBKEY") (Some []) world_private_only =
    save km_encrypted "minion" "node1" (bs "PUBKEY") None world_private_only.
Proof.
  split; [reflexivity|].
  destruct (save_empty_private_as_absent km_encrypted km_plain "/etc/salt/pki"
              "minion" "node1" (bs "PUBKEY") world_private_only eq_refl) as [H _].
  exact H.
Defined.

(** ** Saving a public key alone *)

(** On a fresh pair, [save] without private material writes the public
    artifact and then fails in [os.chmod]: the private path is not there. *)
Lemma save_no_private_fresh (self : LocalFileKeyManager) (d key_type key_name : string)
    (pub_key : bytes) (priv_key : option bytes) (w : world) :
  base_dir self = VStr d →
  fresh d key_type key_name w →
  truthy_opt priv_key = false →
  save self key_type key_name pub_key priv_key w =
  (Raise (OSError ENOENT),
   set_fs <[key_path d key_type key_name false := File pub_key 256]>
     (World (w_fs (ensure_dir (os.path.join d key_type) w)) 191)).
Proof.
  intros Hd Hfresh Hpriv.
  destruct (fresh_after_derivation _ _ _ _ Hfresh) as [EP EQ].
  pose proof (key_path_pub_ne_priv d key_type key_name) as Hne.
  rewrite (save_no_private_run self d); [|done|done|].
  - cbv zeta. rewrite EP. unfold os.chmod. simpl.
    rewrite lookup_insert_ne, EQ by done. reflexivity.
  - destruct Hfresh as [HP _]. by rewrite HP.
Qed.

(** C2 does not hold of the code: [save("minion", "node2", b"PUB2")] on an
    empty store raises [OSError] (no such file) from the [os.chmod] of the
    private path, which it runs whether or not it wrote a private
    artifact.  The public artifact is written by then, and no private one:
    a [get] that follows returns [(b"PUB2", None)]. *)
Theorem save_public_only_raises :
  fresh "/etc/salt/pki" "minion" "node2" world0 ∧
  fst (save km_plain "minion" "node2" (bs "PUB2") None world0) = Raise (OSError ENOENT) ∧
  fst (get km_plain "minion" "node2" true
         (snd (save km_plain "minion" "node2" (bs "PUB2") None world0)))
    = Ok (bs "PUB2", None).
Proof.
  split; [by apply fresh_world0|].
  rewrite (save_no_private_fresh km_plain "/etc/salt/pki") by (done || by apply fresh_world0).
  split; [reflexivity|]. vm_compute. reflexivity.
Qed.

(** ** The file creation mask *)

(** Whatever [save] does, the mask afterwards is the one before (when it
    stopped at a check) or the narrowed one: it is never put back. *)
Lemma save_umask (self : LocalFileKeyManager) (d key_type key_name : string)
    (pub_key : bytes) (priv_key : option bytes) (w : world) :
  base_dir self = VStr d →
  match fst (save self key_type key_name pub_key priv_key w) with
  | Raise (KeyExists _) =>
      w_umask (snd (save self key_type key_name pub_key priv_key w)) = w_umask w
  | _ => w_umask (snd (save self key_type key_name pub_key priv_key w)) = 191
  end.
Proof.
  intros Hd. unfold save.
  rewrite (_get_key_path_twice self d) by done.
  rewrite <- (ensure_dir_umask (os.path.join d key_type) w).
  generalize (ensure_dir (os.path.join d key_type) w). intros w1.
  pose proof (key_path_pub_ne_priv d key_type key_name) as Hne.
  set (P := key_path d key_type key_name false) in *.
  set (Q := key_path d key_type key_name true) in *.
  set (store := match priv_key with
                | Some k => if truthy_bytes k
                            then Some (_encrypt_priv_key (base self) k) else None
                | None => None
                end).
  destruct (w_fs w1 !! P) as [[]|] eqn:EP;
    destruct (w_fs w1 !! Q) as [[]|] eqn:EQ;
    destruct (truthy_opt priv_key);
    destruct store as [[|b0 k]|];
    do 3 (run; rewrite ?EP, ?EQ, ?lookup_insert_eq; rewrite ?lookup_insert_ne by done);
    do 3 (run; rewrite ?EP, ?EQ, ?lookup_insert_eq; rewrite ?lookup_insert_ne by done);
    reflexivity.
Qed.

(** C4 does not hold of the code: [save] keeps the mask it found in
    [cumask] and never installs it again.  A [save] that succeeds in a
    process with mask [022] returns with the mask at [0277]; see
    [save_umask] for every other outcome. *)
Theorem save_leaves_umask_narrowed :
  w_umask world0 = 18 ∧
  fst (save km_plain "minion" "node1" (bs "PUBKEY") (Some (bs "PRIVKEY")) world0) = Ok tt ∧
  w_umask (snd (save km_plain "minion" "node1" (bs "PUBKEY") (Some (bs "PRIVKEY")) world0))
    = 191.
Proof.
  split; [reflexivity|].
  rewrite (save_fresh_run km_plain "/etc/salt/pki") by (done || by apply fresh_world0).
  split; reflexivity.
Qed.

(** The same when a write fails. *)
Lemma save_failed_write_leaves_umask_narrowed :
  fst (save km_plain "minion" "node1" (bs "PUBKEY") (Some (bs "PRIVKEY")) world_pub_is_dir)
    = Raise (IOError EISDIR) ∧
  w_umask (snd (save km_plain "minion" "node1" (bs "PUBKEY") (Some (bs "PRIVKEY"))
                  world_pub_is_dir)) = 191.
Proof. split; vm_compute; reflexivity. Qed.

(** ** The [decrypt_priv] flag *)

(** [get] does not look at [decrypt_priv]. *)
Lemma get_ignores_decrypt_priv (self : LocalFileKeyManager) (key_type key_name : string)
    (decrypt_priv : bool) (w : world) :
  get self key_type key_name decrypt_priv w = get self key_type key_name true w.
Proof. reflexivity. Qed.

(** C3 does not hold of the code: with encryption enabled,
    [get("minion", "node1", decrypt_priv=False)] returns the private key
    decrypted, not the stored ciphertext. *)
Theorem get_decrypts_despite_flag :
  w_fs world_encrypted !! key_path "/etc/salt/pki" "minion" "node1" true
    = Some (File (mock_encrypt (bs "PRIVKEY")) 256) ∧
  fst (get km_encrypted "minion" "node1" false world_encrypted)
    = Ok (bs "PUBKEY", Some (bs "PRIVKEY")) ∧
  mock_encrypt (bs "PRIVKEY") ≠ bs "PRIVKEY".
Proof.
  split; [vm_compute; reflexivity|].
  split; [vm_compute; reflexivity|]. discriminate.
Qed.

(** ** The encryption wrapper *)

(** Encryption is disabled when the flag is unset or set to a false
    value. *)
Lemma encryption_enabled_false (o : gmap string pyval) :
  encryption_enabled o = false ↔
  o !! "encrypt_private_keys" = None ∨
  ∃ v, o !! "encrypt_private_keys" = Some v ∧ truthy v = false.
Proof.
  unfold encryption_enabled.
  destruct (o !! "encrypt_private_keys") as [v|]; split; eauto.
  intros [H|(v' & [= <-] & H)]; done.
Qed.

Lemma wrapper_disabled (self : BaseKeyManager) (x : bytes) :
  crypt self = None →
  _encrypt_priv_key self x = x ∧ _decrypt_priv_key self x = x.
Proof. intros H. unfold _encrypt_priv_key, _decrypt_priv_key. by rewrite H. Qed.

Lemma wrapper_enabled (self : BaseKeyManager) (c : Crypticle) (x : bytes) :
  crypt self = Some c →
  decrypt c (encrypt c x) = x →
  _decrypt_priv_key self (_encrypt_priv_key self x) = x.
Proof. intros H Hinv. unfold _encrypt_priv_key, _decrypt_priv_key. by rewrite H. Qed.

(** Without a secret, enabling encryption is a configuration error. *)
Lemma __init___no_secret {T : Type}
    (new_Crypticle : gmap string pyval → pyval → Crypticle)
    (hook : BaseKeyManager → result T) (o : gmap string pyval) :
  encryption_enabled o = true →
  o !! "keystore_secret" = None →
  __init__ new_Crypticle hook o = Raise (KeyManagerConfigError config_error_msg).
Proof. intros Hen Hs. unfold __init__. by rewrite Hen, Hs. Qed.

(** C9: for a key manager that [__init__] has built from the options [o]
    (for any backend, that is any [initialize] hook): with encryption
    disabled no cipher is constructed and both wrappers return their
    argument; with encryption enabled the cipher is the one constructed
    from the secret, and when that cipher decrypts what it encrypts,
    [_decrypt_priv_key] undoes [_encrypt_priv_key] on every byte string. *)
Theorem encryption_wrapper_roundtrip {T : Type}
    (new_Crypticle : gmap string pyval → pyval → Crypticle)
    (hook : BaseKeyManager → result T) (o : gmap string pyval) (built : T) :
  __init__ new_Crypticle hook o = Ok built →
  ∃ self : BaseKeyManager,
    hook self = Ok built ∧ opts self = o ∧
    (encryption_enabled o = false →
       crypt self = None ∧
       ∀ x, _encrypt_priv_key self x = x ∧ _decrypt_priv_key self x = x) ∧
    (encryption_enabled o = true →
       ∃ secret, o !! "keystore_secret" = Some secret ∧
         crypt self = Some (new_Crypticle o secret) ∧
         ((∀ x, decrypt (new_Crypticle o secret) (encrypt (new_Crypticle o secret) x) = x) →
          ∀ x, _decrypt_priv_key self (_encrypt_priv_key self x) = x)).
Proof.
  unfold __init__. intros Hbuilt.
  destruct (encryption_enabled o) eqn:Hen.
  - destruct (o !! "keystore_secret") as [secret|] eqn:Hs; [|discriminate Hbuilt].
    eexists. split; [exact Hbuilt|]. split; [reflexivity|]. split; [done|].
    intros _. exists secret. split; [done|]. split; [reflexivity|].
    intros Hinv x. by apply (wrapper_enabled _ (new_Crypticle o secret)).
  - eexists. split; [exact Hbuilt|]. split; [reflexivity|]. split; [|done].
    intros _. split; [reflexivity|]. intros x. by apply wrapper_disabled.
Qed.

Lemma encryption_wrapper_roundtrip_witness :
  MANAGER (λ _ _, mock_Crypticle) opts_encrypted = Ok km_encrypted ∧
  ∃ self : BaseKeyManager,
    initialize self = Ok km_encrypted ∧ opts self = opts_encrypted ∧
    (encryption_enabled opts_encrypted = false →
       crypt self = None ∧
       ∀ x, _encrypt_priv_key self x = x ∧ _decrypt_priv_key self x = x) ∧
    (encryption_enabled opts_encrypted = true →
       ∃ secret, opts_encrypted !! "keystore_secret" = Some secret ∧
         crypt self = Some mock_Crypticle ∧
         ((∀ x, decrypt mock_Crypticle (encrypt mock_Crypticle x) = x) →
          ∀ x, _decrypt_priv_key self (_encrypt_priv_key self x) = x)).
Proof.
  split; [vm_compute; reflexivity|].
  apply (encryption_wrapper_roundtrip (λ _ _, mock_Crypticle) initialize
           opts_encrypted km_encrypted).
  vm_compute. reflexivity.
Defined.

(** * Further properties of the backend *)

(** ** What [save] leaves alone *)

(** Case analysis on what [save] finds: the material, the ciphertext and
    the two paths after path derivation. *)
Ltac save_cases self d key_type key_name priv_key w1 EP EQ :=
  pose proof (key_path_pub_ne_priv d key_type key_name);
  destruct priv_key as [[|? ?]|];
  [ | destruct (_encrypt_priv_key (base self) (_ :: _)) as [|? ?] eqn:? | ];
  destruct (w_fs w1 !! key_path d key_type key_name false) as [[? ?|?]|] eqn:EP;
  destruct (w_fs w1 !! key_path d key_type key_name true) as [[? ?|?]|] eqn:EQ;
  do 6 (run; rewrite ?EP, ?EQ, ?lookup_insert_eq; rewrite ?lookup_insert_ne by done).


(** X1: [save] does not overwrite.  Whatever it is given and however it
    ends, every file that was in the store before still holds the same
    contents afterwards: the two artifacts of the pair included. *)
Theorem save_never_overwrites (self : LocalFileKeyManager)
    (d key_type key_name : string) (pub_key : bytes) (priv_key : option bytes)
    (w : world) (q : string) (data : bytes) :
  base_dir self = VStr d →
  file_data (w_fs w !! q) = Some data →
  file_data (w_fs (snd (save self key_type key_name pub_key priv_key w)) !! q) = Some data.
Proof.
  intros Hd. unfold save.
  rewrite (_get_key_path_twice self d) by done.
  rewrite <- (ensure_dir_file_data (os.path.join d key_type) q w).
  generalize (ensure_dir (os.path.join d key_type) w). intros w1 Hq.
  save_cases self d key_type key_name priv_key w1 EP EQ;
    cbn [snd w_fs set_fs];
    (destruct (decide (q = key_path d key_type key_name false)) as [->|];
     [|destruct (decide (q = key_path d key_type key_name true)) as [->|]]);
    rewrite ?lookup_insert_eq; rewrite ?lookup_insert_ne by done;
    rewrite ?lookup_insert_eq; rewrite ?lookup_insert_ne by done;
    rewrite ?EP, ?EQ in *; simpl in *; congruence.
Qed.

Lemma save_never_overwrites_witness :
  base_dir km_plain = VStr "/etc/salt/pki" ∧
  file_data (w_fs world_private_only !! "/etc/salt/pki/minion/node1.pem")
    = Some (bs "OLDPRIV") ∧
  file_data (w_fs (snd (save km_plain "minion" "node1" (bs "PUBKEY") None
                          world_private_only))
               !! "/etc/salt/pki/minion/node1.pem") = Some (bs "OLDPRIV").
Proof.
  split; [reflexivity|]. split; [vm_compute; reflexivity|].
  apply (save_never_overwrites km_plain "/etc/salt/pki"); [reflexivity|].
  vm_compute. reflexivity.
Defined.

(** ** Permissions after a successful [save] *)

(** X2: when [save] returns, the public artifact is a file that holds the
    public material and only its owner may read it; the private path has
    the mode [0400] as well; and when private material was supplied (and
    its stored form is not empty) the private artifact holds that stored
    form, the material as [_encrypt_priv_key] gives it. *)
Theorem save_ok_owner_read_only (self : LocalFileKeyManager)
    (d key_type key_name : string) (pub_key : bytes) (priv_key : option bytes)
    (w w' : world) :
  base_dir self = VStr d →
  save self key_type key_name pub_key priv_key w = (Ok tt, w') →
  w_fs w' !! key_path d key_type key_name false = Some (File pub_key 256) ∧
  (∃ n, w_fs w' !! key_path d key_type key_name true = Some n ∧ node_mode n = 256) ∧
  (∀ k, priv_key = Some k → k ≠ [] → _encrypt_priv_key (base self) k ≠ [] →
        w_fs w' !! key_path d key_type key_name true
          = Some (File (_encrypt_priv_key (base self) k) 256)).
Proof.
  intros Hd. unfold save.
  rewrite (_get_key_path_twice self d) by done.
  generalize (ensure_dir (os.path.join d key_type) w). intros w1.
  save_cases self d key_type key_name priv_key w1 EP EQ;
    intros [= <-]; cbn [snd w_fs set_fs];
    rewrite ?lookup_insert_eq; rewrite ?lookup_insert_ne by done;
    rewrite ?lookup_insert_eq; rewrite ?lookup_insert_ne by done;
    (split; [reflexivity|]); (split; [eexists; split; [eassumption || reflexivity|reflexivity]|]);
    intros k' [= <-] Hk Hne; congruence.
Qed.

Lemma save_ok_owner_read_only_witness :
  base_dir km_encrypted = VStr "/etc/salt/pki" ∧
  save km_encrypted "minion" "node1" (bs "PUBKEY") (Some (bs "PRIVKEY")) world0
    = (Ok tt, world_encrypted) ∧
  w_fs world_encrypted !! key_path "/etc/salt/pki" "minion" "node1" false
    = Some (File (bs "PUBKEY") 256).
Proof.
  assert (H : save km_encrypted "minion" "node1" (bs "PUBKEY") (Some (bs "PRIVKEY")) world0
              = (Ok tt, world_encrypted)) by (vm_compute; reflexivity).
  split; [reflexivity|]. split; [exact H|].
  destruct (save_ok_owner_read_only km_encrypted "/etc/salt/pki" "minion" "node1"
              (bs "PUBKEY") (Some (bs "PRIVKEY")) world0 world_encrypted eq_refl H)
    as [Hpub _].
  exact Hpub.
Defined.

(** ** No rollback *)



(** ** [get] only reads *)



(** ** [remove] frees the name *)




(** ** Key names within a type *)







(** ** The layout of the store *)








(** ** Construction *)

(** X9: what constructing the local backend gives.  Encryption enabled
    without a secret is a [KeyManagerConfigError], whether or not
    [pki_dir] is set: that check comes first.  Past it, a missing
    [pki_dir] is a [SaltMasterError].  Otherwise the manager is built: it
    keeps the options, its directory is the value of [pki_dir], and it
    has a cipher, the one made from the secret, exactly when encryption
    is enabled. *)
Theorem MANAGER_outcome (new_Crypticle : gmap string pyval → pyval → Crypticle)
    (o : gmap string pyval) :
  (encryption_enabled o = true → o !! "keystore_secret" = None →
   MANAGER new_Crypticle o = Raise (KeyManagerConfigError config_error_msg)) ∧
  ((encryption_enabled o = true → is_Some (o !! "keystore_secret")) →
   o !! "pki_dir" = None →
   MANAGER new_Crypticle o = Raise (SaltMasterError pki_dir_error_msg)) ∧
  (∀ m, MANAGER new_Crypticle o = Ok m ↔
        opts (base m) = o ∧
        o !! "pki_dir" = Some (base_dir m) ∧
        (encryption_enabled o = true → is_Some (o !! "keystore_secret")) ∧
        crypt (base m) = (if encryption_enabled o
                          then new_Crypticle o <$> o !! "keystore_secret"
                          else None)).
Proof.
  unfold MANAGER, __init__, initialize.
  split; [|split].
  - intros Hen Hs. by rewrite Hen, Hs.
  - intros Hs Hdir. destruct (encryption_enabled o).
    + destruct Hs as [secret Hs]; [done|]. rewrite Hs. simpl. by rewrite Hdir.
    + simpl. by rewrite Hdir.
  - intros [[mo mc] md]. simpl.
    destruct (encryption_enabled o).
    + destruct (o !! "keystore_secret") as [secret|]; simpl.
      * destruct (o !! "pki_dir") as [v|]; split.
        -- intros [= <- <- <-]. eauto.
        -- intros (-> & [= ->] & _ & ->). done.
        -- done.
        -- intros (_ & H & _). discriminate H.
      * split; [done|]. intros (_ & _ & H & _). by destruct H.
    + destruct (o !! "pki_dir") as [v|]; split.
      * intros [= <- <- <-]. done.
      * intros (-> & [= ->] & _ & ->). done.
      * done.
      * intros (_ & H & _). discriminate H.
Qed.

(** ** A directory that is not a string *)

(** X10: [initialize] takes any value for [pki_dir], so a manager can be
    built whose directory is not a string (say [None]).  With a relative
    key type every operation of such a manager raises when it joins the
    path, before it looks at the store: the world is as it was. *)
Theorem pki_dir_not_a_string (self : LocalFileKeyManager)
    (key_type key_name : string) (pub_key : bytes) (priv_key : option bytes)
    (decrypt_priv : bool) (w : world) :
  (∀ s, base_dir self ≠ VStr s) →
  startswith_sep key_type = false →
  save self key_type key_name pub_key priv_key w = (Raise AttributeError, w) ∧
  get self key_type key_name decrypt_priv w = (Raise AttributeError, w) ∧
  remove self key_type key_name w = (Raise AttributeError, w).
Proof.
  intros Hv Hrel.
  assert (Hpath : ∀ p, _get_key_path self key_type key_name p w = (Raise AttributeError, w)).
  { intros p. unfold _get_key_path, join_base. rewrite Hrel.
    destruct (base_dir self) as [| | |s] eqn:E; try reflexivity.
    by destruct (Hv s). }
  unfold save, get, remove. rewrite !run_bind, !Hpath. done.
Qed.

Lemma pki_dir_not_a_string_witness :
  MANAGER (λ _ _, mock_Crypticle) {[ "pki_dir" := VNone ]}
    = Ok {| base := {| opts := {[ "pki_dir" := VNone ]}; crypt := None |};
            base_dir := VNone |} ∧
  get {| base := {| opts := {[ "pki_dir" := VNone ]}; crypt := None |};
         base_dir := VNone |} "minion" "node1" true world0
    = (Raise AttributeError, world0).
Proof.
  split; [vm_compute; reflexivity|].
  apply (pki_dir_not_a_string _ "minion" "node1" [] None true world0); done.
Defined.

(** ** A public key saved onto a private artifact that was left behind *)

(** X11: when the private artifact of a pair is in the store, the public
    one is not, and [save] is called without private material, [save]
    returns; the private artifact keeps its contents (its mode becomes
    [0400]); and [get] then pairs the new public material with the old
    private artifact. *)
Theorem save_adopts_stored_private (self : LocalFileKeyManager)
    (d key_type key_name : string) (pub_key stored : bytes) (mode : Z)
    (priv_key : option bytes) (w : world) :
  base_dir self = VStr d →
  startswith_sep key_name = false →
  w_fs w !! key_path d key_type key_name false = None →
  w_fs w !! key_path d key_type key_name true = Some (File stored mode) →
  truthy_opt priv_key = false →
  ∃ w' : world,
    save self key_type key_name pub_key priv_key w = (Ok tt, w') ∧
    w_fs w' !! key_path d key_type key_name true = Some (File stored 256) ∧
    get self key_type key_name true w'
      = (Ok (pub_key, Some (_decrypt_priv_key (base self) stored)), w').
Proof.
  intros Hd Hrel HP HQ Hpriv.
  pose proof (key_path_pub_ne_priv d key_type key_name) as Hne.
  rewrite (save_no_private_run self d) by (done || by rewrite HP).
  cbv zeta.
  rewrite <- (ensure_dir_lookup_ne (os.path.join d key_type) _ w) in HP
    by (by apply key_path_ne_type_dir).
  rewrite <- (ensure_dir_lookup_ne (os.path.join d key_type) _ w) in HQ
    by (by apply key_path_ne_type_dir).
  pose proof (ensure_dir_is_Some (os.path.join d key_type) w) as Ht.
  revert HP HQ Ht. generalize (ensure_dir (os.path.join d key_type) w). intros w1 HP HQ Ht.
  rewrite HP. unfold os.chmod. cbn [w_fs set_fs].
  rewrite lookup_insert_ne, HQ by done.
  eexists. split; [reflexivity|]. cbn [w_fs set_fs].
  split; [by rewrite lookup_insert_eq|].
  rewrite (get_run self d) by done. cbn [w_fs set_fs].
  rewrite lookup_insert_ne, !lookup_insert_eq by done. simpl.
  rewrite ensure_dir_there; [done|].
  unfold set_fs. simpl. rewrite !lookup_insert_is_Some'. auto.
Qed.

Lemma save_adopts_stored_private_witness :
  base_dir km_plain = VStr "/etc/salt/pki" ∧
  w_fs world_private_only !! key_path "/etc/salt/pki" "minion" "node1" true
    = Some (File (bs "OLDPRIV") 256) ∧
  ∃ w' : world,
    save km_plain "minion" "node1" (bs "PUBKEY") None world_private_only = (Ok tt, w') ∧
    w_fs w' !! key_path "/etc/salt/pki" "minion" "node1" true
      = Some (File (bs "OLDPRIV") 256) ∧
    get km_plain "minion" "node1" true w'
      = (Ok (bs "PUBKEY", Some (_decrypt_priv_key (base km_plain) (bs "OLDPRIV"))), w').
Proof.
  split; [reflexivity|]. split; [vm_compute; reflexivity|].
  apply (save_adopts_stored_private km_plain "/etc/salt/pki" "minion" "node1"
           (bs "PUBKEY") (bs "OLDPRIV") 256 None world_private_only);
    try done; vm_compute; reflexivity.
Defined.

(** ** Looking up creates the type directory *)


